(** * The espn-api probe script, embedded and verified

    Source: [test-espn-api-library.py].  The script imports the third-party
    [espn_api] package, builds a league handle for a fixed league and year,
    and prints what it finds on the handle: draft picks, teams, rosters.

    The embedding has three layers:
    - [Py]: the part of the Python runtime the script relies on (values,
      exceptions, attribute lookup, truthiness, [len], slicing, [dir],
      [print], [try]/[except]);
    - [Script]: the script itself, statement by statement;
    - the theorems, one group per probe. *)

From Stdlib Require Import Ascii.
From stdpp Require Import base option list sorting gmap strings.

Set Warnings "-register-all".
Local Open Scope string_scope.
Local Open Scope Z_scope.
Local Open Scope list_scope.
Local Open Scope stdpp_scope.

(** ** The Python runtime *)

Module Py.

(** Every exception of this model is an instance of [Exception]: these are
    what [except Exception] catches.  The classes the script or the runtime
    tell apart have a constructor of their own; [ModuleNotFoundError] is a
    subclass of [ImportError]. *)
Inductive exc_class : Type :=
  | AttributeError
  | TypeError
  | ImportError
  | ModuleNotFoundError
  | OtherError (name : string).

Record exn : Type := Exn { exc_cls : exc_class; exc_msg : string }.

Definition is_AttributeError (e : exn) : bool :=
  match exc_cls e with AttributeError => true | _ => false end.

Definition is_ImportError (e : exn) : bool :=
  match exc_cls e with
  | ImportError | ModuleNotFoundError => true
  | _ => false
  end.

(** What reading an attribute does: it holds a value, or it is a property
    whose getter raises. *)
Inductive slot (V : Type) : Type :=
  | Holds (v : V)
  | Raises (e : exn).
Arguments Holds {V} v.
Arguments Raises {V} e.

(** Values.  [VObj cls attrs] is an instance of a library class: [attrs] is
    the table of every attribute name [dir] reports for it.  Instances are
    plain objects: they define neither [__bool__] nor [__len__] nor
    [__getitem__]. *)
Inductive value : Type :=
  | VNone
  | VBool (b : bool)
  | VInt (z : Z)
  | VStr (s : string)
  | VList (l : list value)
  | VObj (cls : string) (attrs : gmap string (slot value)).

Abbreviation attr_table := (gmap string (slot value)).

(** One fragment of a printed line: literal text of an f-string, a value
    formatted by [str], or a class formatted by [str] ([type(x)]). *)
Inductive frag : Type :=
  | Lit (s : string)
  | Fmt (v : value)
  | FmtType (cls : string).

Definition line : Type := list frag.

(** Computations: the lines printed so far, and an exception or a result. *)
Definition M (A : Type) : Type := list line * (exn + A).

Definition ret {A} (a : A) : M A := ([], inr a).

Definition printed {A} (m : M A) : list line := fst m.
Definition result {A} (m : M A) : exn + A := snd m.

Definition bind {A B} (m : M A) (k : A → M B) : M B :=
  match result m with
  | inl e => (printed m, inl e)
  | inr a => let r := k a in (printed m ++ printed r, result r)
  end.

Declare Scope py_scope.
Delimit Scope py_scope with py.
Bind Scope py_scope with M.
Notation "x ← y ; z" := (bind y (λ x, z)) : py_scope.
Notation "x ;; z" := (bind x (λ _, z)) : py_scope.
Local Open Scope py_scope.

Definition raise {A} (e : exn) : M A := ([], inl e).

Definition print (l : line) : M unit := ([l], inr tt).

(** [try: body / except cls as e: handler e], where [catches] decides
    [isinstance(e, cls)]. *)
Definition try_except {A} (catches : exn → bool) (body : M A)
    (handler : exn → M A) : M A :=
  match result body with
  | inl e =>
      if catches e then
        let h := handler e in (printed body ++ printed h, result h)
      else body
  | inr _ => body
  end.

(** [isinstance(e, Exception)]: every exception of the model. *)
Definition Exception (e : exn) : bool := true.

Definition nl : string := String "010"%char "".

(** [s * n] on strings. *)
Fixpoint str_mul (s : string) (n : nat) : string :=
  match n with
  | O => ""
  | S n' => s +:+ str_mul s n'
  end.

Definition type_name (v : value) : string :=
  match v with
  | VNone => "NoneType"
  | VBool _ => "bool"
  | VInt _ => "int"
  | VStr _ => "str"
  | VList _ => "list"
  | VObj cls _ => cls
  end.

(** [bool(v)]. *)
Definition truthy (v : value) : bool :=
  match v with
  | VNone => false
  | VBool b => b
  | VInt z => negb (z =? 0)
  | VStr s => negb (String.eqb s "")
  | VList l => match l with [] => false | _ => true end
  | VObj _ _ => true
  end.

Definition type_error {A} (msg : string) : M A := raise (Exn TypeError msg).

(** [len(v)].  A [string] of this model is a sequence of bytes: on [VStr],
    [len], [slice_to] and [iter] agree with Python for ASCII text and count
    UTF-8 bytes where Python counts code points.  The script only ever
    applies them to what the library returns as [teams], [picks] or
    [roster]; every exact statement below is about lists. *)
Definition len (v : value) : M nat :=
  match v with
  | VStr s => ret (String.length s)
  | VList l => ret (length l)
  | _ => type_error ("object of type '" +:+ type_name v +:+ "' has no len()")
  end.

(** [v[:n]]. *)
Definition slice_to (n : nat) (v : value) : M value :=
  match v with
  | VStr s => ret (VStr (String.substring 0 n s))
  | VList l => ret (VList (take n l))
  | _ => type_error ("'" +:+ type_name v +:+ "' object is not subscriptable")
  end.

(** The items a [for] loop over [v] visits. *)
Definition iter (v : value) : M (list value) :=
  match v with
  | VStr s => ret ((λ c, VStr (String c "")) <$> String.list_ascii_of_string s)
  | VList l => ret l
  | _ => type_error ("'" +:+ type_name v +:+ "' object is not iterable")
  end.

(** What a [for] body tells its loop. *)
Inductive loop_ctl : Type := Continue | Break.

(** [for i, x in enumerate(l): body], counting from [i]. *)
Fixpoint for_enumerate {A} (body : nat → A → M loop_ctl) (i : nat)
    (l : list A) : M unit :=
  match l with
  | [] => ret tt
  | x :: rest =>
      c ← body i x;
      match c with
      | Break => ret tt
      | Continue => for_enumerate body (S i) rest
      end
  end.

(** [for x in l: body], a loop without [break]. *)
Fixpoint for_each {A} (body : A → M unit) (l : list A) : M unit :=
  match l with
  | [] => ret tt
  | x :: rest => body x;; for_each body rest
  end.

Section Attributes.

(** The attributes of the builtin types, by type name: [str.count],
    [int.real], the dunder methods.  The script never creates them; it
    only meets them when the library hands it a builtin value. *)
Variable type_attrs : string → attr_table.

Definition attrs_of (v : value) : attr_table :=
  match v with
  | VObj _ attrs => attrs
  | _ => type_attrs (type_name v)
  end.

(** The expression [v.name]. *)
Definition attr (v : value) (name : string) : M value :=
  match attrs_of v !! name with
  | Some (Holds x) => ret x
  | Some (Raises e) => raise e
  | None =>
      raise (Exn AttributeError
               ("'" +:+ type_name v +:+ "' object has no attribute '"
                    +:+ name +:+ "'"))
  end.

(** [getattr(v, name, default)]: only [AttributeError] is turned into the
    default. *)
Definition getattr (v : value) (name : string) (default : value) : M value :=
  try_except is_AttributeError (attr v name) (λ _, ret default).

(** [hasattr(v, name)]: only [AttributeError] is turned into [False]. *)
Definition hasattr (v : value) (name : string) : M bool :=
  try_except is_AttributeError (attr v name;; ret true) (λ _, ret false).

(** [dir(v)]: the attribute names, sorted. *)
Definition dir (v : value) : list string :=
  merge_sort String.le (map_to_list (attrs_of v)).*1.

End Attributes.

(** [s.startswith(p)]. *)
Definition startswith (s p : string) : bool := String.prefix p s.

Definition str_list (l : list string) : value := VList (VStr <$> l).

End Py.

(** ** The script *)

Module Script.
Import Py.
Local Open Scope py_scope.

(** An instance of a library class, as its constructor returns it. *)
Record instance : Type :=
  Instance { inst_cls : string; inst_attrs : attr_table }.

Definition obj (i : instance) : value := VObj (inst_cls i) (inst_attrs i).

(** The class [espn_api.football.League], called as
    [League(league_id=..., year=...)]: it raises or returns an instance. *)
Definition League_class : Type := Z → Z → exn + instance.

Definition construct (League : League_class) (league_id year : Z) : M value :=
  match League league_id year with
  | inl e => raise e
  | inr i => ret (obj i)
  end.

(** How the process ends: [exit(code)] or falling off the end of the script
    (status 0), or an exception nobody caught (the interpreter prints a
    traceback and the status is 1). *)
Inductive outcome : Type :=
  | Exited (code : Z)
  | Uncaught (e : exn).

Definition exit_status (o : outcome) : Z :=
  match o with
  | Exited code => code
  | Uncaught _ => 1
  end.

Section Probes.

Variable type_attrs : string → attr_table.

Abbreviation getattr := (Py.getattr type_attrs).
Abbreviation hasattr := (Py.hasattr type_attrs).
Abbreviation attr := (Py.attr type_attrs).
Abbreviation dir := (Py.dir type_attrs).

(** The [try] block of [test_league_access], lines 22 to 30. *)
Definition league_access_try (League : League_class) (league_id year : Z)
    : M value :=
  print [Lit "📊 Connecting to League "; Fmt (VInt league_id);
         Lit " (Year "; Fmt (VInt year); Lit ")..."];;
  league ← construct League league_id year;
  name ← getattr league "name" (VStr "Unknown Name");
  print [Lit "✅ League connected: "; Fmt name];;
  teams ← getattr league "teams" (VList []);
  n ← len teams;
  print [Lit "📈 Teams: "; Fmt (VInt (Z.of_nat n))];;
  week ← getattr league "current_week" (VStr "Unknown");
  print [Lit "🏆 Current week: "; Fmt week];;
  ret league.

Definition test_league_access (League : League_class) : M value :=
  print [Lit (nl +:+ "🔍 TESTING LEAGUE ACCESS")];;
  print [Lit (str_mul "=" 50)];;
  let league_id := 449753582 in
  let year := 2025 in
  try_except Exception
    (league_access_try League league_id year)
    (λ e,
     print [Lit "❌ Public access failed: "; Lit (exc_msg e)];;
     ret VNone).

(** [len(x) if x else 0]. *)
Definition len_or_0 (x : value) : M nat :=
  if truthy x then len x else ret 0%nat.

(** The body of the loop over the picks, lines 60 to 69. *)
Definition show_pick (i : nat) (pick : value) : M loop_ctl :=
  player_name ← getattr pick "player_name" (VStr "Unknown Player");
  team_id ← getattr pick "team_id" (VStr "Unknown Team");
  round_num ← getattr pick "round_num" (VStr "Unknown Round");
  pick_num ← getattr pick "pick_num" (VStr "Unknown Pick");
  print [Lit "  Pick "; Fmt (VInt (Z.of_nat i + 1)); Lit ": Round ";
         Fmt round_num; Lit ", Pick "; Fmt pick_num];;
  print [Lit "           Team "; Fmt team_id; Lit " → "; Fmt player_name];;
  if (5 <=? Z.of_nat i)%Z then ret Break else ret Continue.

(** The [try] block of [test_draft_access], lines 46 to 77. *)
Definition draft_access_try (league : value) : M unit :=
  has_draft ← hasattr league "draft";
  if has_draft then
    print [Lit "✅ League has draft attribute!"];;
    draft ← attr league "draft";
    print [Lit "📋 Draft object: "; FmtType (type_name draft)];;
    has_picks ← hasattr draft "picks";
    if has_picks then
      picks ← attr draft "picks";
      n ← len_or_0 picks;
      print [Lit "🎯 Total draft picks found: "; Fmt (VInt (Z.of_nat n))];;
      if truthy picks then
        print [Lit (nl +:+ "📊 DRAFT PICKS DETECTED:")];;
        first10 ← slice_to 10 picks;
        items ← iter first10;
        for_enumerate show_pick 0 items
      else
        print [Lit "❌ No draft picks found in picks array"]
    else
      print [Lit "❌ Draft object has no 'picks' attribute"];;
      print [Lit "📋 Available draft attributes: ";
             Fmt (str_list (dir draft))]
  else
    print [Lit "❌ League has no 'draft' attribute"];;
    print [Lit "📋 Available league attributes: ";
           Fmt (str_list
                  (filter (λ a, negb (startswith a "_")) (dir league)))].

Definition test_draft_access (league : value) : M unit :=
  if negb (truthy league) then
    print [Lit (nl +:+ "❌ No league to test draft access")]
  else
    print [Lit (nl +:+ "🎯 TESTING DRAFT ACCESS")];;
    print [Lit (str_mul "=" 50)];;
    try_except Exception
      (draft_access_try league)
      (λ e, print [Lit "❌ Draft access failed: "; Lit (exc_msg e)]).

(** The body of the loop over a roster, lines 108 to 110. *)
Definition show_player (player : value) : M unit :=
  name ← getattr player "name" (VStr "Unknown Player");
  position ← getattr player "position" (VStr "Unknown Position");
  print [Lit "    - "; Fmt name; Lit " ("; Fmt position; Lit ")"].

(** The body of the loop over the teams, lines 95 to 112. *)
Definition show_team (team : value) : M unit :=
  team_id ← getattr team "team_id" (VStr "Unknown");
  team_name ← getattr team "team_name" (VStr "Unknown");
  owner ← getattr team "owner" (VStr "Unknown");
  print [Lit (nl +:+ "🏈 Team "); Fmt team_id; Lit ": "; Fmt team_name;
         Lit " (Owner: "; Fmt owner; Lit ")"];;
  has_roster ← hasattr team "roster";
  if has_roster then
    roster ← attr team "roster";
    n ← len_or_0 roster;
    print [Lit "  📋 Roster size: "; Fmt (VInt (Z.of_nat n))];;
    if truthy roster then
      first3 ← slice_to 3 roster;
      players ← iter first3;
      for_each show_player players
    else ret tt
  else
    print [Lit "  ❌ No roster attribute found"].

(** The [try] block of [test_teams_and_rosters], lines 91 to 112. *)
Definition teams_and_rosters_try (league : value) : M unit :=
  teams ← getattr league "teams" (VList []);
  n ← len teams;
  print [Lit "📊 Found "; Fmt (VInt (Z.of_nat n)); Lit " teams"];;
  first3 ← slice_to 3 teams;
  items ← iter first3;
  for_each show_team items.

Definition test_teams_and_rosters (league : value) : M unit :=
  if negb (truthy league) then ret tt
  else
    print [Lit (nl +:+ "👥 TESTING TEAMS AND ROSTERS")];;
    print [Lit (str_mul "=" 50)];;
    try_except Exception
      (teams_and_rosters_try league)
      (λ e, print [Lit "❌ Teams/roster access failed: "; Lit (exc_msg e)]).

Definition main (League : League_class) : M unit :=
  print [Lit "🏈 ESPN API LIBRARY TEST"];;
  print [Lit "Testing draft monitoring capabilities..."];;
  league ← test_league_access League;
  test_draft_access league;;
  test_teams_and_rosters league;;
  print [Lit (nl +:+ "🎯 SUMMARY:")];;
  if truthy league then
    print [Lit "✅ ESPN API library can connect to your league!"];;
    print [Lit "🎯 This might be the solution for live draft monitoring!"];;
    print [Lit (nl +:+ "💡 Next steps:")];;
    print [Lit "1. Add authentication cookies for private league access"];;
    print [Lit "2. Test during active draft"];;
    print [Lit "3. Integrate with Discord monitoring system"]
  else
    print [Lit "❌ ESPN API library couldn't connect to league"];;
    print [Lit "💡 May need authentication cookies for private leagues"].

(** The module body, run as the main program.  [import_League] is what
    [from espn_api.football import League] does: it raises, or binds the
    class. *)
Definition script (import_League : exn + League_class)
    : list line * outcome :=
  match import_League with
  | inl e =>
      if is_ImportError e then
        ([[Lit "❌ Failed to import ESPN API: "; Lit (exc_msg e)]], Exited 1)
      else ([], Uncaught e)
  | inr League =>
      let run :=
        print [Lit "✅ ESPN API library imported successfully!"];;
        main League in
      (printed run,
       match result run with inl e => Uncaught e | inr _ => Exited 0 end)
  end.

End Probes.

End Script.

(** ** What the theorems observe *)

Import Py Script.
Local Open Scope py_scope.

(** The runtime without any attribute on the builtin types, for examples. *)
Definition bare_builtins : string → attr_table := λ _, ∅.

(** The line an [except Exception as e] handler of the script prints, if
    the [try] block ended in an exception. *)
Definition diagnostic {A} (prefix : string) (r : exn + A) : list line :=
  match r with
  | inl e => [[Lit prefix; Lit (exc_msg e)]]
  | inr _ => []
  end.

(** The lines of [main] after the "SUMMARY:" line. *)
Definition verdict (league : value) : list line :=
  if truthy league then
    [ [Lit "✅ ESPN API library can connect to your league!"];
      [Lit "🎯 This might be the solution for live draft monitoring!"];
      [Lit (nl +:+ "💡 Next steps:")];
      [Lit "1. Add authentication cookies for private league access"];
      [Lit "2. Test during active draft"];
      [Lit "3. Integrate with Discord monitoring system"] ]
  else
    [ [Lit "❌ ESPN API library couldn't connect to league"];
      [Lit "💡 May need authentication cookies for private leagues"] ].

(** Lines are told apart by the literal text they start with. *)
Definition starts_with (text : string) (l : line) : bool :=
  match l with
  | Lit s :: _ => String.eqb s text
  | _ => false
  end.

Definition count_lines (p : line → bool) (out : list line) : nat :=
  length (List.filter p out).

(** The first of the two lines printed for a pick, the line printed for a
    team, and the line printed for a roster player. *)
Definition is_pick_line : line → bool := starts_with "  Pick ".
Definition is_team_line : line → bool := starts_with (nl +:+ "🏈 Team ").
Definition is_player_line : line → bool := starts_with "    - ".

Section Observations.
Variable type_attrs : string → attr_table.

(** No getter of [v] raises anything but [AttributeError]. *)
Definition quiet (v : value) : Prop :=
  ∀ name e,
    attrs_of type_attrs v !! name = Some (Raises e) →
    is_AttributeError e = true.

(** The value a [getattr(v, name, default)] of the script reads when no
    getter of [v] raises. *)
Definition shown (v : value) (name : string) (default : value) : value :=
  match attrs_of type_attrs v !! name with
  | Some (Holds x) => x
  | _ => default
  end.

(** The two lines for the pick at index [i]. *)
Definition pick_lines (i : nat) (pick : value) : list line :=
  [ [Lit "  Pick "; Fmt (VInt (Z.of_nat i + 1)); Lit ": Round ";
     Fmt (shown pick "round_num" (VStr "Unknown Round")); Lit ", Pick ";
     Fmt (shown pick "pick_num" (VStr "Unknown Pick"))];
    [Lit "           Team ";
     Fmt (shown pick "team_id" (VStr "Unknown Team")); Lit " → ";
     Fmt (shown pick "player_name" (VStr "Unknown Player"))] ].

Definition team_line (team : value) : line :=
  [Lit (nl +:+ "🏈 Team "); Fmt (shown team "team_id" (VStr "Unknown"));
   Lit ": "; Fmt (shown team "team_name" (VStr "Unknown"));
   Lit " (Owner: "; Fmt (shown team "owner" (VStr "Unknown")); Lit ")"].

Definition player_line (player : value) : line :=
  [Lit "    - "; Fmt (shown player "name" (VStr "Unknown Player"));
   Lit " ("; Fmt (shown player "position" (VStr "Unknown Position"));
   Lit ")"].

End Observations.

(** ** Laws of the runtime *)

Section MonadLaws.
Context {A B : Type}.

Lemma bind_ret_l (a : A) (k : A → M B) : bind (ret a) k = k a.
Proof. unfold bind; simpl. by destruct (k a). Qed.

Lemma bind_raise (e : exn) (k : A → M B) : bind (raise e) k = raise e.
Proof. reflexivity. Qed.

Lemma bind_returns (m : M A) (k : A → M B) (a : A) :
  result m = inr a →
  bind m k = (printed m ++ printed (k a), result (k a)).
Proof. unfold bind. by intros ->. Qed.

Lemma bind_raises (m : M A) (k : A → M B) (e : exn) :
  result m = inl e → bind m k = (printed m, inl e).
Proof. unfold bind. by intros ->. Qed.

Lemma printed_bind (m : M A) (k : A → M B) :
  printed (bind m k) =
  printed m ++ match result m with inr a => printed (k a) | inl _ => [] end.
Proof. unfold bind. destruct (result m); simpl; by rewrite ?app_nil_r. Qed.

Lemma result_bind (m : M A) (k : A → M B) :
  result (bind m k) =
  match result m with inr a => result (k a) | inl e => inl e end.
Proof. unfold bind. by destruct (result m). Qed.

End MonadLaws.

Lemma bind_print {B} (l : line) (k : unit → M B) :
  bind (print l) k = (l :: printed (k tt), result (k tt)).
Proof. reflexivity. Qed.

Lemma M_eta {A} (m : M A) : m = (printed m, result m).
Proof. by destruct m. Qed.

(** A computation that prints nothing is its result. *)
Lemma silent_eta {A} (m : M A) : printed m = [] → m = ([], result m).
Proof. intros H. rewrite (M_eta m) at 1. by rewrite H. Qed.

Lemma bind_silent {A B} (m : M A) (k : A → M B) :
  printed m = [] →
  bind m k = match result m with inr a => k a | inl e => raise e end.
Proof.
  intros H. unfold bind. rewrite H.
  destruct (result m) as [e|a]; [done|]. cbn. by destruct (k a).
Qed.

Lemma len_silent v : printed (len v) = [].
Proof. by destruct v. Qed.

Lemma slice_to_silent n v : printed (slice_to n v) = [].
Proof. by destruct v. Qed.

Lemma iter_silent v : printed (iter v) = [].
Proof. by destruct v. Qed.

Section AttributeLaws.
Variable type_attrs : string → attr_table.
Implicit Types (v x d : value) (name : string) (e : exn).

Lemma attr_holds v name x :
  attrs_of type_attrs v !! name = Some (Holds x) →
  attr type_attrs v name = ret x.
Proof. unfold attr. by intros ->. Qed.

Lemma getattr_holds v name d x :
  attrs_of type_attrs v !! name = Some (Holds x) →
  getattr type_attrs v name d = ret x.
Proof. intros H. unfold getattr. by rewrite (attr_holds _ _ _ H). Qed.

Lemma getattr_absent v name d :
  attrs_of type_attrs v !! name = None →
  getattr type_attrs v name d = ret d.
Proof. unfold getattr, attr. by intros ->. Qed.

Lemma hasattr_holds v name x :
  attrs_of type_attrs v !! name = Some (Holds x) →
  hasattr type_attrs v name = ret true.
Proof. unfold hasattr, attr. by intros ->. Qed.

Lemma hasattr_absent v name :
  attrs_of type_attrs v !! name = None →
  hasattr type_attrs v name = ret false.
Proof. unfold hasattr, attr. by intros ->. Qed.

(** [getattr] returns the held value or the default, or passes on what a
    getter raised. *)
Lemma getattr_cases v name d :
  getattr type_attrs v name d = ret (shown type_attrs v name d)
  ∨ ∃ e, attrs_of type_attrs v !! name = Some (Raises e)
         ∧ is_AttributeError e = false
         ∧ getattr type_attrs v name d = raise e.
Proof.
  unfold getattr, attr, shown.
  destruct (attrs_of type_attrs v !! name) as [[x|e]|] eqn:E; [by left| |by left].
  unfold try_except; cbn. destruct (is_AttributeError e) eqn:Ee.
  - by left.
  - right. by exists e.
Qed.

Lemma getattr_quiet v name d :
  quiet type_attrs v →
  getattr type_attrs v name d = ret (shown type_attrs v name d).
Proof.
  intros Hq. destruct (getattr_cases v name d) as [H|(e & He & Hne & _)].
  - done.
  - rewrite (Hq _ _ He) in Hne. done.
Qed.

(** [hasattr] answers, or passes on what a getter raised. *)
Lemma hasattr_cases v name :
  (∃ b, hasattr type_attrs v name = ret b
        ∧ (b = true → ∃ x, attrs_of type_attrs v !! name = Some (Holds x)))
  ∨ ∃ e, hasattr type_attrs v name = raise e.
Proof.
  unfold hasattr, attr.
  destruct (attrs_of type_attrs v !! name) as [[x|e]|] eqn:E.
  - left. exists true. split; [done|]. eauto.
  - unfold try_except; cbn. destruct (is_AttributeError e).
    + left. by exists false.
    + right. by exists e.
  - left. by exists false.
Qed.

Lemma getattr_silent v name d : printed (getattr type_attrs v name d) = [].
Proof.
  destruct (getattr_cases v name d) as [->|(e & _ & _ & ->)]; done.
Qed.

Lemma hasattr_silent v name : printed (hasattr type_attrs v name) = [].
Proof.
  destruct (hasattr_cases v name) as [(b & -> & _)|(e & ->)]; done.
Qed.

Lemma attr_silent v name : printed (attr type_attrs v name) = [].
Proof.
  unfold attr. by destruct (attrs_of type_attrs v !! name) as [[x|e]|].
Qed.

Lemma shown_absent v name d :
  attrs_of type_attrs v !! name = None → shown type_attrs v name d = d.
Proof. unfold shown. by intros ->. Qed.

Lemma shown_holds v name d x :
  attrs_of type_attrs v !! name = Some (Holds x) →
  shown type_attrs v name d = x.
Proof. unfold shown. by intros ->. Qed.

(** [dir] lists exactly the attribute names of the table. *)
Lemma elem_of_dir v name :
  name ∈ dir type_attrs v ↔ is_Some (attrs_of type_attrs v !! name).
Proof.
  unfold dir. rewrite merge_sort_Permutation, list_elem_of_fmap. split.
  - intros ([n s] & -> & H%elem_of_map_to_list). by exists s.
  - intros [s H]. exists (name, s). split; [done|].
    by apply elem_of_map_to_list.
Qed.

Lemma quiet_bare cls : quiet type_attrs (VObj cls ∅).
Proof. intros name e H. cbn in H. by rewrite lookup_empty in H. Qed.

Lemma quiet_insert cls name x (m : attr_table) :
  quiet type_attrs (VObj cls m) →
  quiet type_attrs (VObj cls (<[name := Holds x]> m)).
Proof.
  intros Hq n e H. cbn in H. destruct (decide (name = n)) as [->|Hne].
  - by rewrite lookup_insert_eq in H.
  - rewrite lookup_insert_ne in H by done. by apply (Hq n).
Qed.

End AttributeLaws.

Lemma len_or_0_silent v : printed (len_or_0 v) = [].
Proof. unfold len_or_0. destruct (truthy v); [apply len_silent|done]. Qed.


(** ** Counting lines *)

Lemma count_lines_app p (a b : list line) :
  count_lines p (a ++ b) = (count_lines p a + count_lines p b)%nat.
Proof. unfold count_lines. by rewrite List.filter_app, length_app. Qed.

Lemma count_lines_cons p (l : line) (out : list line) :
  count_lines p (l :: out) =
  ((if p l then 1 else 0) + count_lines p out)%nat.
Proof. unfold count_lines. cbn. by destruct (p l). Qed.

Lemma count_lines_nil p : count_lines p [] = 0%nat.
Proof. reflexivity. Qed.

Lemma count_lines_diagnostic {A} p prefix (r : exn + A) :
  starts_with prefix [Lit prefix] = true →
  (∀ l, starts_with prefix l = true → p l = false) →
  count_lines p (diagnostic prefix r) = 0%nat.
Proof.
  intros _ Hp. destruct r as [e|a]; [|done]. cbn [diagnostic].
  rewrite count_lines_cons, (Hp [Lit prefix; Lit (exc_msg e)]); [done|].
  cbn. apply String.eqb_refl.
Qed.

(** ** Each probe as its [try] block and its handler *)

Section ProbesReturn.
Variable type_attrs : string → attr_table.

(** A league the [try] block returns is the instance [League] built. *)
Lemma league_access_try_returns League league_id year league :
  result (league_access_try type_attrs League league_id year) = inr league →
  ∃ i, League league_id year = inr i ∧ league = obj i.
Proof.
  unfold league_access_try, construct.
  rewrite bind_print; cbn [result snd].
  destruct (League league_id year) as [e|i]; [by rewrite bind_raise|].
  rewrite bind_ret_l. intros H. exists i. split; [done|].
  revert H.
  repeat (rewrite ?bind_print, ?result_bind; cbn [result snd];
          try match goal with
            | |- context [match result ?m with _ => _ end] =>
                destruct (result m); [by intros|]
            end).
  cbn. congruence.
Qed.

Lemma league_access_unfold League :
  let body := league_access_try type_attrs League 449753582 2025 in
  test_league_access type_attrs League =
    ([Lit (nl +:+ "🔍 TESTING LEAGUE ACCESS")] :: [Lit (str_mul "=" 50)]
       :: printed body ++ diagnostic "❌ Public access failed: " (result body),
     match result body with inl _ => inr VNone | inr league => inr league end).
Proof.
  intros body. unfold test_league_access. rewrite !bind_print.
  cbn [printed result fst snd]. fold body. clearbody body.
  unfold try_except.
  destruct (result body) as [e|league] eqn:E; cbn [diagnostic Exception].
  - done.
  - by rewrite app_nil_r, E.
Qed.

Lemma draft_access_unfold league :
  truthy league = true →
  let body := draft_access_try type_attrs league in
  test_draft_access type_attrs league =
    ([Lit (nl +:+ "🎯 TESTING DRAFT ACCESS")] :: [Lit (str_mul "=" 50)]
       :: printed body ++ diagnostic "❌ Draft access failed: " (result body),
     inr tt).
Proof.
  intros Ht body. unfold test_draft_access. rewrite Ht. cbn [negb].
  rewrite !bind_print. cbn [printed result fst snd]. fold body.
  clearbody body. unfold try_except.
  destruct (result body) as [e|[]] eqn:E; cbn [diagnostic Exception].
  - done.
  - by rewrite app_nil_r, E.
Qed.

Lemma teams_and_rosters_unfold league :
  truthy league = true →
  let body := teams_and_rosters_try type_attrs league in
  test_teams_and_rosters type_attrs league =
    ([Lit (nl +:+ "👥 TESTING TEAMS AND ROSTERS")] :: [Lit (str_mul "=" 50)]
       :: printed body
            ++ diagnostic "❌ Teams/roster access failed: " (result body),
     inr tt).
Proof.
  intros Ht body. unfold test_teams_and_rosters. rewrite Ht. cbn [negb].
  rewrite !bind_print. cbn [printed result fst snd]. fold body.
  clearbody body. unfold try_except.
  destruct (result body) as [e|[]] eqn:E; cbn [diagnostic Exception].
  - done.
  - by rewrite app_nil_r, E.
Qed.

Lemma draft_access_no_league league :
  truthy league = false →
  test_draft_access type_attrs league =
    ([[Lit (nl +:+ "❌ No league to test draft access")]], inr tt).
Proof. unfold test_draft_access. by intros ->. Qed.

Lemma teams_and_rosters_no_league league :
  truthy league = false →
  test_teams_and_rosters type_attrs league = ([], inr tt).
Proof. unfold test_teams_and_rosters. by intros ->. Qed.

Lemma league_access_returns League :
  ∃ league, result (test_league_access type_attrs League) = inr league
            ∧ (league = VNone ∨ ∃ i, league = obj i).
Proof.
  rewrite league_access_unfold. cbn [result snd].
  destruct (result (league_access_try _ _ _ _)) as [e|league] eqn:E.
  - exists VNone. auto.
  - exists league. split; [done|]. right.
    destruct (league_access_try_returns _ _ _ _ E) as (i & _ & ->). eauto.
Qed.

Lemma draft_access_returns league :
  result (test_draft_access type_attrs league) = inr tt.
Proof.
  destruct (truthy league) eqn:Ht.
  - by rewrite draft_access_unfold.
  - by rewrite draft_access_no_league.
Qed.

Lemma teams_and_rosters_returns league :
  result (test_teams_and_rosters type_attrs league) = inr tt.
Proof.
  destruct (truthy league) eqn:Ht.
  - by rewrite teams_and_rosters_unfold.
  - by rewrite teams_and_rosters_no_league.
Qed.

Lemma main_unfold League league :
  result (test_league_access type_attrs League) = inr league →
  main type_attrs League =
    ([Lit "🏈 ESPN API LIBRARY TEST"]
       :: [Lit "Testing draft monitoring capabilities..."]
       :: printed (test_league_access type_attrs League)
       ++ printed (test_draft_access type_attrs league)
       ++ printed (test_teams_and_rosters type_attrs league)
       ++ [Lit (nl +:+ "🎯 SUMMARY:")] :: verdict league,
     inr tt).
Proof.
  intros Hl. unfold main. rewrite !bind_print. cbn [printed result fst snd].
  rewrite (bind_returns _ _ _ Hl). cbn [printed result fst snd].
  rewrite (bind_returns _ _ _ (draft_access_returns league)).
  cbn [printed result fst snd].
  rewrite (bind_returns _ _ _ (teams_and_rosters_returns league)).
  cbn [printed result fst snd]. rewrite bind_print.
  cbn [printed result fst snd]. unfold verdict.
  by destruct (truthy league).
Qed.

End ProbesReturn.

(** ** The league-access probe *)

(** C1. If [League(...)] raises, [test_league_access] catches the error,
    prints the line "Public access failed: " followed by the error's
    message, and returns [None]; nothing propagates. *)
Theorem league_access_catches (type_attrs : string → attr_table)
    (League : League_class) (e : exn) :
  League 449753582 2025 = inl e →
  test_league_access type_attrs League =
    ([ [Lit (nl +:+ "🔍 TESTING LEAGUE ACCESS")];
       [Lit (str_mul "=" 50)];
       [Lit "📊 Connecting to League "; Fmt (VInt 449753582);
        Lit " (Year "; Fmt (VInt 2025); Lit ")..."];
       [Lit "❌ Public access failed: "; Lit (exc_msg e)] ],
     inr VNone).
Proof.
  intros HL. unfold test_league_access, league_access_try, construct.
  rewrite HL. reflexivity.
Qed.

Lemma league_access_catches_witness :
  let League : League_class :=
    λ _ _, inl (Exn (OtherError "ESPNAccessDenied") "League is private") in
  League 449753582 2025
    = inl (Exn (OtherError "ESPNAccessDenied") "League is private")
  ∧ result (test_league_access bare_builtins League) = inr VNone.
Proof.
  intros League. split; [reflexivity|].
  by rewrite (league_access_catches bare_builtins League
                (Exn (OtherError "ESPNAccessDenied") "League is private")).
Defined.

(** ** Probing without a league *)

(** C2, as the code has it.  Without a league ([None]) the draft-access
    probe prints its "No league to test draft access" line and returns; the
    roster-access probe returns without printing anything.  Neither
    raises. *)
Theorem probes_without_league (type_attrs : string → attr_table) :
  test_draft_access type_attrs VNone =
    ([[Lit (nl +:+ "❌ No league to test draft access")]], inr tt)
  ∧ test_teams_and_rosters type_attrs VNone = ([], inr tt).
Proof. split; reflexivity. Qed.

(** C2, as the claim has it, fails: after a failed league access the
    roster-access probe prints no line at all, so no "no league" message. *)
Lemma roster_probe_prints_no_message :
  let League : League_class :=
    λ _ _, inl (Exn (OtherError "ESPNAccessDenied") "League is private") in
  result (test_league_access bare_builtins League) = inr VNone
  ∧ printed (test_teams_and_rosters bare_builtins VNone) = []
  ∧ ¬ ∃ l, l ∈ printed (test_teams_and_rosters bare_builtins VNone).
Proof.
  intros League. split; [reflexivity|]. split; [reflexivity|].
  intros [l Hl]. cbn in Hl. by apply elem_of_nil in Hl.
Qed.

(** ** The import guard and the exit status *)

(** C6. If the import raises [ImportError] (or its subclass
    [ModuleNotFoundError]), the script prints the line "Failed to import
    ESPN API: " with the error's message and nothing else, and exits with
    status 1: no probe has run. *)
Theorem import_failure_exits_1 (type_attrs : string → attr_table) (e : exn) :
  is_ImportError e = true →
  script type_attrs (inl e) =
    ([[Lit "❌ Failed to import ESPN API: "; Lit (exc_msg e)]], Exited 1)
  ∧ exit_status (script type_attrs (inl e)).2 = 1.
Proof. intros He. unfold script. rewrite He. done. Qed.

Lemma import_failure_exits_1_witness :
  let e := Exn ModuleNotFoundError "No module named 'espn_api'" in
  is_ImportError e = true
  ∧ script bare_builtins (inl e) =
      ([[Lit "❌ Failed to import ESPN API: ";
         Lit "No module named 'espn_api'"]], Exited 1).
Proof.
  intros e. split; [reflexivity|].
  exact (proj1 (import_failure_exits_1 bare_builtins e eq_refl)).
Defined.

(** C7. The exit status is non-zero exactly when the import raised.  When
    the import succeeds, the run prints the confirmation and the two title
    lines, then the output of the league-access probe, of the draft-access
    probe and of the roster-access probe in this order, the two later
    probes run on what the first returned ([None] or the handle), then the
    "SUMMARY:" line and its verdict, and exits with status 0.  Each probe
    is its [try] block followed, if the block raised, by the handler's
    diagnostic line, and returns normally. *)
Theorem only_import_failure_is_fatal (type_attrs : string → attr_table)
    (import_League : exn + League_class) :
  (exit_status (script type_attrs import_League).2 ≠ 0
     ↔ ∃ e, import_League = inl e)
  ∧ (∀ League, import_League = inr League →
       ∃ league,
         result (test_league_access type_attrs League) = inr league
         ∧ (league = VNone ∨ ∃ i, league = obj i)
         ∧ script type_attrs import_League =
             ([Lit "✅ ESPN API library imported successfully!"]
                :: [Lit "🏈 ESPN API LIBRARY TEST"]
                :: [Lit "Testing draft monitoring capabilities..."]
                :: printed (test_league_access type_attrs League)
                ++ printed (test_draft_access type_attrs league)
                ++ printed (test_teams_and_rosters type_attrs league)
                ++ [Lit (nl +:+ "🎯 SUMMARY:")] :: verdict league,
              Exited 0))
  ∧ (∀ League,
       let body := league_access_try type_attrs League 449753582 2025 in
       test_league_access type_attrs League =
         ([Lit (nl +:+ "🔍 TESTING LEAGUE ACCESS")] :: [Lit (str_mul "=" 50)]
            :: printed body
                 ++ diagnostic "❌ Public access failed: " (result body),
          match result body with
          | inl _ => inr VNone
          | inr league => inr league
          end))
  ∧ (∀ league, truthy league = true →
       let body := draft_access_try type_attrs league in
       test_draft_access type_attrs league =
         ([Lit (nl +:+ "🎯 TESTING DRAFT ACCESS")] :: [Lit (str_mul "=" 50)]
            :: printed body
                 ++ diagnostic "❌ Draft access failed: " (result body),
          inr tt))
  ∧ (∀ league, truthy league = true →
       let body := teams_and_rosters_try type_attrs league in
       test_teams_and_rosters type_attrs league =
         ([Lit (nl +:+ "👥 TESTING TEAMS AND ROSTERS")]
            :: [Lit (str_mul "=" 50)]
            :: printed body
                 ++ diagnostic "❌ Teams/roster access failed: " (result body),
          inr tt)).
Proof.
  assert (Hrun : ∀ League, ∃ league,
             result (test_league_access type_attrs League) = inr league
             ∧ (league = VNone ∨ ∃ i, league = obj i)
             ∧ script type_attrs (inr League) =
                 ([Lit "✅ ESPN API library imported successfully!"]
                    :: [Lit "🏈 ESPN API LIBRARY TEST"]
                    :: [Lit "Testing draft monitoring capabilities..."]
                    :: printed (test_league_access type_attrs League)
                    ++ printed (test_draft_access type_attrs league)
                    ++ printed (test_teams_and_rosters type_attrs league)
                    ++ [Lit (nl +:+ "🎯 SUMMARY:")] :: verdict league,
                  Exited 0)).
  { intros League.
    destruct (league_access_returns type_attrs League) as (league & Hl & Hc).
    exists league. split; [done|]. split; [done|].
    unfold script. rewrite bind_print. cbn [printed result fst snd].
    by rewrite (main_unfold _ _ _ Hl). }
  split; [|split; [|split; [|split]]].
  - destruct import_League as [e|League].
    + split; [eauto|]. intros _. unfold script.
      by destruct (is_ImportError e).
    + destruct (Hrun League) as (league & _ & _ & ->). cbn.
      split; [done|]. by intros [e ?].
  - intros League ->. apply Hrun.
  - apply league_access_unfold.
  - apply draft_access_unfold.
  - apply teams_and_rosters_unfold.
Qed.

(** ** The summary *)

(** C9. The lines [main] prints after "SUMMARY:" depend only on what the
    league-access probe returned: for a league handle, the success lines
    and the three next steps; for [None], the "couldn't connect" line and
    the hint at authentication cookies. *)
Theorem summary_depends_on_handle (type_attrs : string → attr_table)
    (League : League_class) :
  ∃ league before summary,
    result (test_league_access type_attrs League) = inr league
    ∧ main type_attrs League =
        (before ++ [Lit (nl +:+ "🎯 SUMMARY:")] :: summary, inr tt)
    ∧ ((∃ i, league = obj i
             ∧ summary =
                 [ [Lit "✅ ESPN API library can connect to your league!"];
                   [Lit "🎯 This might be the solution for live draft monitoring!"];
                   [Lit (nl +:+ "💡 Next steps:")];
                   [Lit "1. Add authentication cookies for private league access"];
                   [Lit "2. Test during active draft"];
                   [Lit "3. Integrate with Discord monitoring system"] ])
       ∨ (league = VNone
          ∧ summary =
              [ [Lit "❌ ESPN API library couldn't connect to league"];
                [Lit "💡 May need authentication cookies for private leagues"] ])).
Proof.
  destruct (league_access_returns type_attrs League) as (league & Hl & Hc).
  exists league,
    ([Lit "🏈 ESPN API LIBRARY TEST"]
       :: [Lit "Testing draft monitoring capabilities..."]
       :: printed (test_league_access type_attrs League)
       ++ printed (test_draft_access type_attrs league)
       ++ printed (test_teams_and_rosters type_attrs league)),
    (verdict league).
  split; [done|]. split.
  - rewrite (main_unfold _ _ _ Hl). cbn [app]. by rewrite <- !app_assoc.
  - destruct Hc as [->|[i ->]]; [right|left; exists i]; done.
Qed.

(** ** Loops *)

Lemma printed_bind_print {B} (l : line) (k : unit → M B) :
  printed (bind (print l) k) = l :: printed (k tt).
Proof. reflexivity. Qed.

Lemma length_list_ascii_of_string s :
  length (String.list_ascii_of_string s) = String.length s.
Proof. induction s as [|c s IH]; cbn; by rewrite ?IH. Qed.

Lemma length_substring_0 n s : (String.length (String.substring 0 n s) ≤ n)%nat.
Proof.
  revert s. induction n as [|n IH]; intros [|c s]; cbn; try lia.
  specialize (IH s). lia.
Qed.

(** A slice [v[:n]] has at most [n] items, and no more than [v] has. *)
Lemma slice_items_length n v w items :
  slice_to n v = ret w → iter w = ret items → (length items ≤ n)%nat.
Proof.
  destruct v; cbn; intros [= <-]; cbn; intros [= <-].
  - rewrite length_fmap, length_list_ascii_of_string.
    apply length_substring_0.
  - rewrite length_take. lia.
Qed.

Lemma for_each_count {A} p (body : A → M unit) (n : nat) (l : list A) :
  (∀ x, (count_lines p (printed (body x)) ≤ n)%nat) →
  (count_lines p (printed (for_each body l)) ≤ n * length l)%nat.
Proof.
  intros Hbody. induction l as [|x l IH]; cbn [for_each length].
  - cbn. lia.
  - rewrite printed_bind, count_lines_app. specialize (Hbody x).
    destruct (result (body x)); rewrite ?count_lines_nil; lia.
Qed.

(** Closes a bound on the lines of a computation that printed nothing. *)
Ltac count_nothing :=
  cbn [printed ret raise fst for_enumerate for_each length];
  rewrite ?count_lines_nil; lia.

(** Decides the line tests on lines that start with known text. *)
Ltac decide_lines :=
  repeat match goal with
    | |- context [is_team_line ?l] =>
        let b := eval vm_compute in (is_team_line l) in
        change (is_team_line l) with b
    | |- context [is_player_line ?l] =>
        let b := eval vm_compute in (is_player_line l) in
        change (is_player_line l) with b
    | |- context [is_pick_line ?l] =>
        let b := eval vm_compute in (is_pick_line l) in
        change (is_pick_line l) with b
    end;
  cbv iota.

Ltac silent_step :=
  rewrite printed_bind;
  first [ rewrite getattr_silent | rewrite hasattr_silent
        | rewrite attr_silent | rewrite len_silent | rewrite len_or_0_silent
        | rewrite slice_to_silent | rewrite iter_silent ];
  cbn [app].

Section Loops.
Variable type_attrs : string → attr_table.

Lemma show_pick_cases i pick :
  show_pick type_attrs i pick =
    (pick_lines type_attrs i pick,
     inr (if (5 <=? Z.of_nat i)%Z then Break else Continue))
  ∨ ∃ e, show_pick type_attrs i pick = raise e.
Proof.
  unfold show_pick.
  destruct (getattr_cases type_attrs pick "player_name" (VStr "Unknown Player"))
    as [->|(e & _ & _ & ->)]; [rewrite bind_ret_l|right; by exists e].
  destruct (getattr_cases type_attrs pick "team_id" (VStr "Unknown Team"))
    as [->|(e & _ & _ & ->)]; [rewrite bind_ret_l|right; by exists e].
  destruct (getattr_cases type_attrs pick "round_num" (VStr "Unknown Round"))
    as [->|(e & _ & _ & ->)]; [rewrite bind_ret_l|right; by exists e].
  destruct (getattr_cases type_attrs pick "pick_num" (VStr "Unknown Pick"))
    as [->|(e & _ & _ & ->)]; [rewrite bind_ret_l|right; by exists e].
  left. rewrite !bind_print. cbn [printed result fst snd].
  by destruct (5 <=? Z.of_nat i)%Z.
Qed.

Lemma show_pick_quiet i pick :
  quiet type_attrs pick →
  show_pick type_attrs i pick =
    (pick_lines type_attrs i pick,
     inr (if (5 <=? Z.of_nat i)%Z then Break else Continue)).
Proof.
  intros Hq. unfold show_pick.
  rewrite !(getattr_quiet _ _ _ _ Hq), !bind_ret_l, !bind_print.
  cbn [printed result fst snd]. by destruct (5 <=? Z.of_nat i)%Z.
Qed.

Lemma count_pick_lines i pick :
  count_lines is_pick_line (pick_lines type_attrs i pick) = 1%nat.
Proof. reflexivity. Qed.

(** The loop over the picks prints at most one pick per item, and stops
    after the item with index 5. *)
Lemma picks_loop_count items i :
  (count_lines is_pick_line
     (printed (for_enumerate (show_pick type_attrs) i items))
   ≤ min (length items) (max 1 (6 - i)))%nat.
Proof.
  revert i. induction items as [|x rest IH]; intros i; [count_nothing|].
  cbn [for_enumerate length].
  destruct (show_pick_cases i x) as [H|[e H]]; rewrite H.
  - rewrite bind_returns with (a := if (5 <=? Z.of_nat i)%Z then Break else Continue)
      by done.
    cbn [printed fst]. rewrite count_lines_app, count_pick_lines.
    destruct (5 <=? Z.of_nat i)%Z eqn:E.
    + count_nothing.
    + apply Z.leb_gt in E. specialize (IH (S i)). lia.
  - rewrite bind_raise. count_nothing.
Qed.

(** When no getter of the picks raises, the loop prints the two lines of
    each of the first six picks. *)
Lemma picks_loop_quiet items i :
  (i ≤ 5)%nat →
  Forall (quiet type_attrs) (take (6 - i) items) →
  for_enumerate (show_pick type_attrs) i items =
    (concat (imap (λ j, pick_lines type_attrs (i + j)) (take (6 - i) items)),
     inr tt).
Proof.
  revert i. induction items as [|x rest IH]; intros i Hi Hq.
  { by rewrite take_nil. }
  replace (6 - i)%nat with (S (5 - i)) in * by lia.
  cbn [take] in *. apply Forall_cons in Hq as [Hx Hrest].
  cbn [for_enumerate]. rewrite (show_pick_quiet _ _ Hx).
  rewrite bind_returns with (a := if (5 <=? Z.of_nat i)%Z then Break else Continue)
    by done.
  cbn [printed result fst snd]. rewrite imap_cons. cbn [concat].
  rewrite Nat.add_0_r.
  destruct (5 <=? Z.of_nat i)%Z eqn:E.
  - apply Z.leb_le in E. replace (5 - i)%nat with 0%nat by lia.
    by rewrite take_0.
  - apply Z.leb_gt in E.
    replace (5 - i)%nat with (6 - S i)%nat in * by lia.
    rewrite (IH (S i)) by (done || lia). cbn [printed result fst snd].
    do 3 f_equal. apply imap_ext. intros j y _. cbn. f_equal. lia.
Qed.

Lemma show_player_cases player :
  show_player type_attrs player = ([player_line type_attrs player], inr tt)
  ∨ ∃ e, show_player type_attrs player = raise e.
Proof.
  unfold show_player.
  destruct (getattr_cases type_attrs player "name" (VStr "Unknown Player"))
    as [->|(e & _ & _ & ->)]; [rewrite bind_ret_l|right; by exists e].
  destruct (getattr_cases type_attrs player "position"
              (VStr "Unknown Position"))
    as [->|(e & _ & _ & ->)]; [rewrite bind_ret_l|right; by exists e].
  by left.
Qed.

Lemma show_player_quiet player :
  quiet type_attrs player →
  show_player type_attrs player = ([player_line type_attrs player], inr tt).
Proof.
  intros Hq. unfold show_player.
  by rewrite !(getattr_quiet _ _ _ _ Hq), !bind_ret_l.
Qed.

Lemma players_loop_count players :
  (count_lines is_player_line
     (printed (for_each (show_player type_attrs) players))
   ≤ length players)%nat
  ∧ count_lines is_team_line
      (printed (for_each (show_player type_attrs) players)) = 0%nat.
Proof.
  assert (Hp : ∀ player,
    count_lines is_player_line [player_line type_attrs player] = 1%nat)
    by reflexivity.
  assert (Ht : ∀ player,
    count_lines is_team_line [player_line type_attrs player] = 0%nat)
    by reflexivity.
  split.
  - rewrite <- (Nat.mul_1_l (length players)). apply for_each_count.
    intros player.
    destruct (show_player_cases player) as [->|[e ->]];
      [cbn [printed fst]; rewrite Hp; lia|count_nothing].
  - apply Nat.le_0_r. rewrite <- (Nat.mul_0_l (length players)).
    apply for_each_count. intros player.
    destruct (show_player_cases player) as [->|[e ->]];
      [cbn [printed fst]; rewrite Ht; lia|count_nothing].
Qed.

(** What [show_team] prints: nothing if a getter raised before the team
    line; otherwise the team line, then at most three player lines. *)
Lemma show_team_shape team :
  printed (show_team type_attrs team) = []
  ∨ ∃ rest,
      printed (show_team type_attrs team) = team_line type_attrs team :: rest
      ∧ count_lines is_team_line rest = 0%nat
      ∧ (count_lines is_player_line rest ≤ 3)%nat.
Proof.
  unfold show_team.
  destruct (getattr_cases type_attrs team "team_id" (VStr "Unknown"))
    as [->|(e & _ & _ & ->)]; [rewrite bind_ret_l|by left].
  destruct (getattr_cases type_attrs team "team_name" (VStr "Unknown"))
    as [->|(e & _ & _ & ->)]; [rewrite bind_ret_l|by left].
  destruct (getattr_cases type_attrs team "owner" (VStr "Unknown"))
    as [->|(e & _ & _ & ->)]; [rewrite bind_ret_l|by left].
  right. rewrite printed_bind_print.
  match goal with |- ∃ rest, _ :: ?t = _ ∧ _ => exists t end.
  split; [reflexivity|].
  silent_step.
  destruct (result (hasattr _ _ _)) as [e|[]]; [split; count_nothing| |].
  2:{ cbn [printed print fst]. rewrite !count_lines_cons, !count_lines_nil.
      decide_lines. split; lia. }
  silent_step.
  destruct (result (attr _ _ _)) as [e|roster]; [split; count_nothing|].
  silent_step.
  destruct (result (len_or_0 _)) as [e|n]; [split; count_nothing|].
  rewrite printed_bind_print, !count_lines_cons. decide_lines.
  destruct (truthy roster); [|split; count_nothing].
  silent_step. destruct (slice_to 3 roster) as [o [e|first3]] eqn:Hs;
    cbn [result snd]; [split; count_nothing|].
  silent_step. destruct (iter first3) as [o' [e|players]] eqn:Hi;
    cbn [result snd]; [split; count_nothing|].
  assert (o = []) as -> by (by rewrite <- (slice_to_silent 3 roster), Hs).
  assert (o' = []) as -> by (by rewrite <- (iter_silent first3), Hi).
  pose proof (slice_items_length _ _ _ _ Hs Hi).
  destruct (players_loop_count players) as [Hp ->]. split; lia.
Qed.

Lemma teams_loop_count teams :
  (count_lines is_team_line
     (printed (for_each (show_team type_attrs) teams))
   ≤ length teams)%nat.
Proof.
  rewrite <- (Nat.mul_1_l (length teams)). apply for_each_count.
  intros team.
  destruct (show_team_shape team) as [->|(rest & -> & Hr & _)];
    [rewrite count_lines_nil; lia|].
  rewrite count_lines_cons, Hr. decide_lines. lia.
Qed.

End Loops.

(** ** The roster-access probe *)

Section RosterProbe.
Variable type_attrs : string → attr_table.

Lemma teams_and_rosters_try_count league :
  (count_lines is_team_line
     (printed (teams_and_rosters_try type_attrs league)) ≤ 3)%nat.
Proof.
  unfold teams_and_rosters_try.
  silent_step.
  destruct (result (getattr _ _ _ _)) as [e|teams]; [count_nothing|].
  silent_step. destruct (result (len teams)) as [e|n]; [count_nothing|].
  rewrite printed_bind_print, count_lines_cons. decide_lines.
  silent_step. destruct (slice_to 3 teams) as [o [e|first3]] eqn:Hs;
    cbn [result snd]; [count_nothing|].
  silent_step. destruct (iter first3) as [o' [e|items]] eqn:Hi;
    cbn [result snd]; [count_nothing|].
  assert (o = []) as -> by (by rewrite <- (slice_to_silent 3 teams), Hs).
  assert (o' = []) as -> by (by rewrite <- (iter_silent first3), Hi).
  pose proof (slice_items_length _ _ _ _ Hs Hi).
  pose proof (teams_loop_count type_attrs items). lia.
Qed.

Lemma teams_and_rosters_count league :
  (count_lines is_team_line
     (printed (test_teams_and_rosters type_attrs league)) ≤ 3)%nat.
Proof.
  destruct (truthy league) eqn:Ht.
  - rewrite teams_and_rosters_unfold by done. cbn [printed fst].
    rewrite !count_lines_cons, count_lines_app.
    rewrite count_lines_diagnostic; [|reflexivity|].
    + pose proof (teams_and_rosters_try_count league).
      decide_lines. lia.
    + intros [|[s| |] l]; cbn; try done.
      intros ->%String.eqb_eq. reflexivity.
  - rewrite teams_and_rosters_no_league by done. count_nothing.
Qed.

Lemma show_team_players_count team :
  (count_lines is_player_line (printed (show_team type_attrs team)) ≤ 3)%nat.
Proof.
  destruct (show_team_shape type_attrs team) as [->|(rest & -> & _ & Hr)].
  - rewrite count_lines_nil. lia.
  - rewrite count_lines_cons. decide_lines. lia.
Qed.

(** With a list of teams, the [try] block prints the count and runs the
    loop body on the first three teams. *)
Lemma teams_and_rosters_try_list league ts :
  attrs_of type_attrs league !! "teams" = Some (Holds (VList ts)) →
  let loop := for_each (show_team type_attrs) (take 3 ts) in
  teams_and_rosters_try type_attrs league =
    ([Lit "📊 Found "; Fmt (VInt (Z.of_nat (length ts))); Lit " teams"]
       :: printed loop,
     result loop).
Proof.
  intros Ht loop. unfold teams_and_rosters_try.
  rewrite (getattr_holds _ _ _ _ _ Ht), bind_ret_l.
  cbn [len slice_to iter]. rewrite bind_ret_l, bind_print, !bind_ret_l.
  reflexivity.
Qed.

(** With a non-empty list as roster, [show_team] prints the team line and
    the roster size and runs the loop body on the first three players. *)
Lemma show_team_list team r :
  quiet type_attrs team →
  attrs_of type_attrs team !! "roster" = Some (Holds (VList r)) →
  r ≠ [] →
  let loop := for_each (show_player type_attrs) (take 3 r) in
  show_team type_attrs team =
    (team_line type_attrs team
       :: [Lit "  📋 Roster size: "; Fmt (VInt (Z.of_nat (length r)))]
       :: printed loop,
     result loop).
Proof.
  intros Hq Hr Hne loop. unfold show_team.
  rewrite !(getattr_quiet _ _ _ _ Hq), !bind_ret_l, bind_print.
  rewrite (hasattr_holds _ _ _ _ Hr), bind_ret_l.
  rewrite (attr_holds _ _ _ _ Hr), bind_ret_l.
  assert (truthy (VList r) = true) as Ht by (by destruct r).
  unfold len_or_0. rewrite Ht. cbn [len slice_to iter].
  rewrite bind_ret_l, bind_print, !bind_ret_l. reflexivity.
Qed.

End RosterProbe.

(** C4. Whatever the league handle is, the roster-access probe prints the
    line of at most three teams, and for each team it shows, the line of at
    most three players.  With a list of teams, the loop body runs on the
    first three teams and on nothing else; with a list as roster, the
    inner loop body runs on the first three players and on nothing else. *)
Theorem roster_probe_first_three (type_attrs : string → attr_table) :
  (∀ league,
     (count_lines is_team_line
        (printed (test_teams_and_rosters type_attrs league)) ≤ 3)%nat)
  ∧ (∀ team,
       (count_lines is_player_line
          (printed (show_team type_attrs team)) ≤ 3)%nat)
  ∧ (∀ league ts,
       truthy league = true →
       attrs_of type_attrs league !! "teams" = Some (Holds (VList ts)) →
       let loop := for_each (show_team type_attrs) (take 3 ts) in
       test_teams_and_rosters type_attrs league =
         ([Lit (nl +:+ "👥 TESTING TEAMS AND ROSTERS")]
            :: [Lit (str_mul "=" 50)]
            :: [Lit "📊 Found "; Fmt (VInt (Z.of_nat (length ts)));
                Lit " teams"]
            :: printed loop
            ++ diagnostic "❌ Teams/roster access failed: " (result loop),
          inr tt))
  ∧ (∀ team r,
       quiet type_attrs team →
       attrs_of type_attrs team !! "roster" = Some (Holds (VList r)) →
       r ≠ [] →
       let loop := for_each (show_player type_attrs) (take 3 r) in
       show_team type_attrs team =
         (team_line type_attrs team
            :: [Lit "  📋 Roster size: "; Fmt (VInt (Z.of_nat (length r)))]
            :: printed loop,
          result loop)).
Proof.
  split; [apply teams_and_rosters_count|].
  split; [apply show_team_players_count|].
  split; [|apply show_team_list].
  intros league ts Ht Hts loop.
  rewrite teams_and_rosters_unfold by done.
  by rewrite (teams_and_rosters_try_list _ _ _ Hts).
Qed.

(** ** The draft-access probe *)

Section DraftProbe.
Variable type_attrs : string → attr_table.

(** Without a [draft] attribute. *)
Lemma draft_access_try_no_draft league :
  attrs_of type_attrs league !! "draft" = None →
  draft_access_try type_attrs league =
    ([ [Lit "❌ League has no 'draft' attribute"];
       [Lit "📋 Available league attributes: ";
        Fmt (str_list (filter (λ a, negb (startswith a "_"))
                         (dir type_attrs league)))] ],
     inr tt).
Proof.
  intros H. unfold draft_access_try.
  by rewrite (hasattr_absent _ _ _ H), bind_ret_l.
Qed.

(** With a [draft] but without [picks] on it. *)
Lemma draft_access_try_no_picks league draft :
  attrs_of type_attrs league !! "draft" = Some (Holds draft) →
  attrs_of type_attrs draft !! "picks" = None →
  draft_access_try type_attrs league =
    ([ [Lit "✅ League has draft attribute!"];
       [Lit "📋 Draft object: "; FmtType (type_name draft)];
       [Lit "❌ Draft object has no 'picks' attribute"];
       [Lit "📋 Available draft attributes: ";
        Fmt (str_list (dir type_attrs draft))] ],
     inr tt).
Proof.
  intros Hd Hp. unfold draft_access_try.
  rewrite (hasattr_holds _ _ _ _ Hd), bind_ret_l, bind_print.
  rewrite (attr_holds _ _ _ _ Hd), bind_ret_l, bind_print.
  by rewrite (hasattr_absent _ _ _ Hp), bind_ret_l.
Qed.


(** With a non-empty list of picks: the loop runs on the first ten. *)
Lemma draft_access_try_picks league draft l :
  attrs_of type_attrs league !! "draft" = Some (Holds draft) →
  attrs_of type_attrs draft !! "picks" = Some (Holds (VList l)) →
  l ≠ [] →
  let loop := for_enumerate (show_pick type_attrs) 0 (take 10 l) in
  draft_access_try type_attrs league =
    ([Lit "✅ League has draft attribute!"]
       :: [Lit "📋 Draft object: "; FmtType (type_name draft)]
       :: [Lit "🎯 Total draft picks found: ";
           Fmt (VInt (Z.of_nat (length l)))]
       :: [Lit (nl +:+ "📊 DRAFT PICKS DETECTED:")]
       :: printed loop,
     result loop).
Proof.
  intros Hd Hp Hne loop. unfold draft_access_try.
  rewrite (hasattr_holds _ _ _ _ Hd), bind_ret_l, bind_print.
  rewrite (attr_holds _ _ _ _ Hd), bind_ret_l, bind_print.
  rewrite (hasattr_holds _ _ _ _ Hp), bind_ret_l.
  rewrite (attr_holds _ _ _ _ Hp), bind_ret_l.
  assert (truthy (VList l) = true) as Ht by (by destruct l).
  unfold len_or_0. rewrite Ht. cbn [len slice_to iter].
  rewrite bind_ret_l, !bind_print, !bind_ret_l. reflexivity.
Qed.

End DraftProbe.

(** C3. With a non-empty list of picks, the draft-access probe prints the
    total count and runs its loop over the first ten picks.  The loop stops
    after the sixth pick: the number of picks shown is at most the lesser
    of the total and six (so of the total and ten), and when no getter of
    the first six picks raises, the output is the two lines of each of
    them, with the placeholders of [shown] for missing fields. *)
Theorem draft_picks_display (type_attrs : string → attr_table)
    (league draft : value) (l : list value) :
  truthy league = true →
  attrs_of type_attrs league !! "draft" = Some (Holds draft) →
  attrs_of type_attrs draft !! "picks" = Some (Holds (VList l)) →
  l ≠ [] →
  let loop := for_enumerate (show_pick type_attrs) 0 (take 10 l) in
  test_draft_access type_attrs league =
    ([Lit (nl +:+ "🎯 TESTING DRAFT ACCESS")] :: [Lit (str_mul "=" 50)]
       :: [Lit "✅ League has draft attribute!"]
       :: [Lit "📋 Draft object: "; FmtType (type_name draft)]
       :: [Lit "🎯 Total draft picks found: ";
           Fmt (VInt (Z.of_nat (length l)))]
       :: [Lit (nl +:+ "📊 DRAFT PICKS DETECTED:")]
       :: printed loop ++ diagnostic "❌ Draft access failed: " (result loop),
     inr tt)
  ∧ (count_lines is_pick_line (printed (test_draft_access type_attrs league))
     ≤ min (length l) 6)%nat
  ∧ (count_lines is_pick_line (printed (test_draft_access type_attrs league))
     ≤ min (length l) 10)%nat
  ∧ (Forall (quiet type_attrs) (take 6 l) →
     loop = (concat (imap (pick_lines type_attrs) (take 6 l)), inr tt)).
Proof.
  intros Ht Hd Hp Hne loop.
  assert (Heq : test_draft_access type_attrs league =
    ([Lit (nl +:+ "🎯 TESTING DRAFT ACCESS")] :: [Lit (str_mul "=" 50)]
       :: [Lit "✅ League has draft attribute!"]
       :: [Lit "📋 Draft object: "; FmtType (type_name draft)]
       :: [Lit "🎯 Total draft picks found: ";
           Fmt (VInt (Z.of_nat (length l)))]
       :: [Lit (nl +:+ "📊 DRAFT PICKS DETECTED:")]
       :: printed loop ++ diagnostic "❌ Draft access failed: " (result loop),
     inr tt)).
  { rewrite draft_access_unfold by done.
    by rewrite (draft_access_try_picks _ _ _ _ Hd Hp Hne). }
  assert (Hcount :
    (count_lines is_pick_line (printed (test_draft_access type_attrs league))
     ≤ min (length l) 6)%nat).
  { rewrite Heq. cbn [printed fst].
    rewrite !count_lines_cons, count_lines_app.
    rewrite count_lines_diagnostic; [|reflexivity|].
    - pose proof (picks_loop_count type_attrs (take 10 l) 0) as Hl.
      fold loop in Hl. rewrite length_take in Hl.
      decide_lines. lia.
    - intros [|[s| |] rest]; cbn; try done.
      intros ->%String.eqb_eq. reflexivity. }
  split; [done|]. split; [done|]. split; [lia|].
  intros Hq. unfold loop.
  rewrite (picks_loop_quiet type_attrs (take 10 l) 0); [|lia|].
  - by rewrite take_take.
  - by rewrite take_take.
Qed.

Lemma draft_picks_display_witness :
  let pick := VObj "Pick" {[ "player_name" := Holds (VStr "Bijan Robinson") ]} in
  let l := replicate 8 pick in
  let draft := VObj "Draft" {[ "picks" := Holds (VList l) ]} in
  let league := VObj "League" {[ "draft" := Holds draft ]} in
  (count_lines is_pick_line
     (printed (test_draft_access bare_builtins league)) ≤ 6)%nat.
Proof.
  intros pick l draft league.
  destruct (draft_picks_display bare_builtins league draft l)
    as (_ & H & _); [reflexivity|reflexivity|reflexivity|done|exact H].
Defined.

(** C8. On a league handle, the probe first looks for [draft], then for
    [picks] on the draft object.  Without [draft] it prints "League has no
    'draft' attribute" and the names of the league's attributes that do not
    start with an underscore; with [draft] but without [picks] it prints
    "Draft object has no 'picks' attribute" and every attribute name of the
    draft object. *)
Theorem draft_capability_checks (type_attrs : string → attr_table)
    (league : value) :
  truthy league = true →
  (attrs_of type_attrs league !! "draft" = None →
   test_draft_access type_attrs league =
     ([ [Lit (nl +:+ "🎯 TESTING DRAFT ACCESS")]; [Lit (str_mul "=" 50)];
        [Lit "❌ League has no 'draft' attribute"];
        [Lit "📋 Available league attributes: ";
         Fmt (str_list (filter (λ a, negb (startswith a "_"))
                          (dir type_attrs league)))] ],
      inr tt))
  ∧ (∀ name,
       name ∈ filter (λ a, negb (startswith a "_")) (dir type_attrs league)
       ↔ is_Some (attrs_of type_attrs league !! name)
         ∧ startswith name "_" = false)
  ∧ (∀ draft,
       attrs_of type_attrs league !! "draft" = Some (Holds draft) →
       attrs_of type_attrs draft !! "picks" = None →
       test_draft_access type_attrs league =
         ([ [Lit (nl +:+ "🎯 TESTING DRAFT ACCESS")]; [Lit (str_mul "=" 50)];
            [Lit "✅ League has draft attribute!"];
            [Lit "📋 Draft object: "; FmtType (type_name draft)];
            [Lit "❌ Draft object has no 'picks' attribute"];
            [Lit "📋 Available draft attributes: ";
             Fmt (str_list (dir type_attrs draft))] ],
          inr tt)
       ∧ ∀ name,
           name ∈ dir type_attrs draft
           ↔ is_Some (attrs_of type_attrs draft !! name)).
Proof.
  intros Ht. split; [|split].
  - intros Hd. rewrite draft_access_unfold by done.
    by rewrite (draft_access_try_no_draft _ _ Hd).
  - intros name. rewrite list_elem_of_filter, elem_of_dir. split.
    + intros [Hn Hs]. split; [done|]. by destruct (startswith name "_").
    + intros [Hs Hn]. split; [by rewrite Hn|done].
  - intros draft Hd Hp. split; [|intros name; apply elem_of_dir].
    rewrite draft_access_unfold by done.
    by rewrite (draft_access_try_no_picks _ _ _ Hd Hp).
Qed.

Lemma draft_capability_checks_witness :
  let league :=
    VObj "League" {[ "teams" := Holds (VList []); "_fetch" := Holds VNone;
                     "year" := Holds (VInt 2025) ]} in
  truthy league = true
  ∧ attrs_of bare_builtins league !! "draft" = None
  ∧ printed (test_draft_access bare_builtins league) =
      [ [Lit (nl +:+ "🎯 TESTING DRAFT ACCESS")]; [Lit (str_mul "=" 50)];
        [Lit "❌ League has no 'draft' attribute"];
        [Lit "📋 Available league attributes: ";
         Fmt (VList [VStr "teams"; VStr "year"])] ].
Proof.
  intros league. split; [reflexivity|]. split; [reflexivity|].
  destruct (draft_capability_checks bare_builtins league eq_refl)
    as (H & _). rewrite (H eq_refl). vm_compute. reflexivity.
Defined.

(** ** Falsy collections *)




(** ** Missing attributes *)

Section LeagueLines.
Variable type_attrs : string → attr_table.

(** The [try] block of the league-access probe on a league whose getters
    do not raise and whose [teams] have a length. *)
Lemma league_access_try_quiet League league_id year i n :
  League league_id year = inr i →
  quiet type_attrs (obj i) →
  len (shown type_attrs (obj i) "teams" (VList [])) = ret n →
  league_access_try type_attrs League league_id year =
    ([ [Lit "📊 Connecting to League "; Fmt (VInt league_id);
        Lit " (Year "; Fmt (VInt year); Lit ")..."];
       [Lit "✅ League connected: ";
        Fmt (shown type_attrs (obj i) "name" (VStr "Unknown Name"))];
       [Lit "📈 Teams: "; Fmt (VInt (Z.of_nat n))];
       [Lit "🏆 Current week: ";
        Fmt (shown type_attrs (obj i) "current_week" (VStr "Unknown"))] ],
     inr (obj i)).
Proof.
  intros HL Hq Hn. unfold league_access_try, construct.
  rewrite HL, bind_print, bind_ret_l.
  rewrite !(getattr_quiet _ _ _ _ Hq), bind_ret_l, bind_print, bind_ret_l.
  rewrite Hn, bind_ret_l, bind_print, bind_ret_l. reflexivity.
Qed.

End LeagueLines.

(** C5, as the code has it.  On an object whose getters do not raise, every
    [getattr] of the script yields the held value or its default, without
    an exception: the lines of a pick, of a team, of a player and of the
    league show [shown v name default].  For an absent attribute that is
    the default: a placeholder string for every attribute but the league's
    [teams], whose default is the empty list, printed as the count 0. *)
Theorem missing_attributes_use_defaults (type_attrs : string → attr_table)
    (v : value) :
  quiet type_attrs v →
  (∀ name default,
     attrs_of type_attrs v !! name = None →
     getattr type_attrs v name default = ([], inr default)
     ∧ shown type_attrs v name default = default)
  ∧ (∀ i, show_pick type_attrs i v =
            (pick_lines type_attrs i v,
             inr (if (5 <=? Z.of_nat i)%Z then Break else Continue)))
  ∧ show_player type_attrs v = ([player_line type_attrs v], inr tt)
  ∧ (∃ rest, printed (show_team type_attrs v) = team_line type_attrs v :: rest)
  ∧ (∀ League i,
       League 449753582 2025 = inr i → v = obj i →
       attrs_of type_attrs v !! "teams" = None →
       test_league_access type_attrs League =
         ([ [Lit (nl +:+ "🔍 TESTING LEAGUE ACCESS")]; [Lit (str_mul "=" 50)];
            [Lit "📊 Connecting to League "; Fmt (VInt 449753582);
             Lit " (Year "; Fmt (VInt 2025); Lit ")..."];
            [Lit "✅ League connected: ";
             Fmt (shown type_attrs v "name" (VStr "Unknown Name"))];
            [Lit "📈 Teams: "; Fmt (VInt 0)];
            [Lit "🏆 Current week: ";
             Fmt (shown type_attrs v "current_week" (VStr "Unknown"))] ],
          inr v)).
Proof.
  intros Hq. split; [|split; [|split; [|split]]].
  - intros name default H.
    by rewrite (getattr_absent _ _ _ _ H), (shown_absent _ _ _ _ H).
  - intros i. by apply show_pick_quiet.
  - by apply show_player_quiet.
  - destruct (show_team_shape type_attrs v) as [H|(rest & H & _)]; [|eauto].
    exfalso. revert H. unfold show_team.
    rewrite !(getattr_quiet _ _ _ _ Hq), !bind_ret_l, printed_bind_print.
    done.
  - intros League i HL -> Ht. rewrite league_access_unfold.
    rewrite (league_access_try_quiet _ _ _ _ i 0%nat HL Hq).
    + reflexivity.
    + by rewrite (shown_absent _ _ _ _ Ht).
Qed.

Lemma missing_attributes_use_defaults_witness :
  let pick := VObj "Pick" (<["round_num" := Holds (VInt 2)]> ∅) in
  quiet bare_builtins pick
  ∧ show_pick bare_builtins 0 pick =
      ([ [Lit "  Pick "; Fmt (VInt 1); Lit ": Round "; Fmt (VInt 2);
          Lit ", Pick "; Fmt (VStr "Unknown Pick")];
         [Lit "           Team "; Fmt (VStr "Unknown Team"); Lit " → ";
          Fmt (VStr "Unknown Player")] ],
       inr Continue).
Proof.
  intros pick.
  assert (Hq : quiet bare_builtins pick)
    by (apply quiet_insert, quiet_bare).
  split; [exact Hq|].
  destruct (missing_attributes_use_defaults bare_builtins pick Hq)
    as (_ & H & _). rewrite (H 0%nat). reflexivity.
Defined.

(** C5, as the claim has it, fails on the league's [teams]: when the
    attribute is absent, [getattr] yields the empty list, and the value
    printed is the count 0, not a placeholder string. *)
Lemma absent_teams_is_no_placeholder :
  let league := Instance "League" ∅ in
  attrs_of bare_builtins (obj league) !! "teams" = None
  ∧ getattr bare_builtins (obj league) "teams" (VList []) = ret (VList [])
  ∧ printed (test_league_access bare_builtins (λ _ _, inr league)) !! 4%nat
      = Some [Lit "📈 Teams: "; Fmt (VInt 0)]
  ∧ ¬ (∃ s, VList [] = VStr s)
  ∧ ¬ (∃ s, VInt 0 = VStr s).
Proof.
  intros league. split; [reflexivity|]. split; [reflexivity|].
  split; [reflexivity|]. split; intros [s H]; discriminate H.
Qed.

(** ** Examples for the roster probe and for the exit status *)

Lemma roster_probe_first_three_witness :
  let player := VObj "Player" (<["name" := Holds (VStr "CeeDee Lamb")]> ∅) in
  let team := VObj "Team" (<["roster" := Holds (VList (replicate 5 player))]> ∅) in
  let league := VObj "League" (<["teams" := Holds (VList (replicate 4 team))]> ∅) in
  count_lines is_team_line
    (printed (test_teams_and_rosters bare_builtins league)) = 3%nat
  ∧ count_lines is_player_line (printed (show_team bare_builtins team)) = 3%nat.
Proof.
  intros player team league.
  destruct (roster_probe_first_three bare_builtins) as (_ & _ & Hl & Ht).
  split.
  - rewrite (Hl league (replicate 4 team) eq_refl eq_refl). reflexivity.
  - rewrite (Ht team (replicate 5 player)); [reflexivity| |reflexivity|done].
    apply quiet_insert, quiet_bare.
Defined.

Lemma only_import_failure_is_fatal_witness :
  let boom := Exn (OtherError "ESPNUnknownError") "unexpected response" in
  let team := VObj "Team" (<["roster" := Holds (VInt 7)]> ∅) in
  let league :=
    Instance "League" (<["draft" := Raises boom]>
                         (<["teams" := Holds (VList [team])]> ∅)) in
  let world : exn + League_class := inr (λ _ _, inr league) in
  result (draft_access_try bare_builtins (obj league)) = inl boom
  ∧ (script bare_builtins world).2 = Exited 0
  ∧ (script bare_builtins world).1 !! 11%nat
      = Some [Lit "❌ Draft access failed: "; Lit "unexpected response"]
  ∧ last (script bare_builtins world).1
      = Some [Lit "3. Integrate with Discord monitoring system"]
  ∧ printed (test_draft_access bare_builtins (obj league)) !! 2%nat
      = Some [Lit "❌ Draft access failed: "; Lit "unexpected response"].
Proof.
  intros boom team league world.
  destruct (only_import_failure_is_fatal bare_builtins world)
    as (_ & Hrun & _ & Hdraft & _).
  destruct (Hrun _ eq_refl) as (lg & Hlg & _ & Hscript).
  assert (lg = obj league) as -> by (by injection Hlg as <-).
  split; [reflexivity|]. rewrite Hscript.
  split; [reflexivity|]. split; [reflexivity|]. split; [reflexivity|].
  rewrite (Hdraft (obj league) eq_refl). reflexivity.
Defined.

(** ** Further properties of the probes *)

Section MoreLeagueAccess.
Variable type_attrs : string → attr_table.

(** X1. A successful league access: the handle is built, no getter raises and
    [teams] is a list.  The probe prints the name, the number of teams and
    the current week (each with its default when absent) and returns the
    handle. *)
Lemma league_access_success (League : League_class) (i : instance)
    (ts : list value) :
  League 449753582 2025 = inr i →
  quiet type_attrs (obj i) →
  shown type_attrs (obj i) "teams" (VList []) = VList ts →
  test_league_access type_attrs League =
    ([ [Lit (nl +:+ "🔍 TESTING LEAGUE ACCESS")]; [Lit (str_mul "=" 50)];
       [Lit "📊 Connecting to League "; Fmt (VInt 449753582);
        Lit " (Year "; Fmt (VInt 2025); Lit ")..."];
       [Lit "✅ League connected: ";
        Fmt (shown type_attrs (obj i) "name" (VStr "Unknown Name"))];
       [Lit "📈 Teams: "; Fmt (VInt (Z.of_nat (length ts)))];
       [Lit "🏆 Current week: ";
        Fmt (shown type_attrs (obj i) "current_week" (VStr "Unknown"))] ],
     inr (obj i)).
Proof.
  intros HL Hq Hts. rewrite league_access_unfold.
  rewrite (league_access_try_quiet _ _ _ _ i (length ts) HL Hq).
  - reflexivity.
  - by rewrite Hts.
Qed.

(** X2. A handle that was built is thrown away when its [teams] have no
    length ([None], a number, an object): [len] raises [TypeError] inside
    the [try] block, the probe prints "Public access failed" after the
    "League connected" line and returns [None]. *)
Lemma league_access_unsized_teams (League : League_class) (i : instance)
    (teams : value) (e : exn) :
  League 449753582 2025 = inr i →
  quiet type_attrs (obj i) →
  attrs_of type_attrs (obj i) !! "teams" = Some (Holds teams) →
  len teams = raise e →
  test_league_access type_attrs League =
    ([ [Lit (nl +:+ "🔍 TESTING LEAGUE ACCESS")]; [Lit (str_mul "=" 50)];
       [Lit "📊 Connecting to League "; Fmt (VInt 449753582);
        Lit " (Year "; Fmt (VInt 2025); Lit ")..."];
       [Lit "✅ League connected: ";
        Fmt (shown type_attrs (obj i) "name" (VStr "Unknown Name"))];
       [Lit "❌ Public access failed: "; Lit (exc_msg e)] ],
     inr VNone)
  ∧ exc_cls e = TypeError.
Proof.
  intros HL Hq Ht He. split.
  - rewrite league_access_unfold. unfold league_access_try, construct.
    rewrite HL, bind_print, bind_ret_l.
    rewrite (getattr_quiet _ _ _ _ Hq), bind_ret_l, bind_print.
    rewrite (getattr_holds _ _ _ _ _ Ht), bind_ret_l, He, bind_raise.
    reflexivity.
  - destruct teams; cbn in He; try discriminate He; by injection He as <-.
Qed.

End MoreLeagueAccess.

Lemma league_access_success_witness :
  let league :=
    Instance "League"
      (<["name" := Holds (VStr "Sunday Legends")]>
         (<["teams" := Holds (VList [VNone; VNone])]> ∅)) in
  test_league_access bare_builtins (λ _ _, inr league) =
    ([ [Lit (nl +:+ "🔍 TESTING LEAGUE ACCESS")]; [Lit (str_mul "=" 50)];
       [Lit "📊 Connecting to League "; Fmt (VInt 449753582);
        Lit " (Year "; Fmt (VInt 2025); Lit ")..."];
       [Lit "✅ League connected: "; Fmt (VStr "Sunday Legends")];
       [Lit "📈 Teams: "; Fmt (VInt 2)];
       [Lit "🏆 Current week: "; Fmt (VStr "Unknown")] ],
     inr (obj league)).
Proof.
  intros league.
  rewrite (league_access_success bare_builtins (λ _ _, inr league) league
             [VNone; VNone] eq_refl);
    [reflexivity| |reflexivity].
  do 2 apply quiet_insert. apply quiet_bare.
Defined.

Lemma league_access_unsized_teams_witness :
  let league := Instance "League" (<["teams" := Holds VNone]> ∅) in
  result (test_league_access bare_builtins (λ _ _, inr league)) = inr VNone.
Proof.
  intros league.
  destruct (league_access_unsized_teams bare_builtins (λ _ _, inr league)
              league VNone
              (Exn TypeError "object of type 'NoneType' has no len()")
              eq_refl) as [H _];
    [apply quiet_insert, quiet_bare|reflexivity|reflexivity|].
  by rewrite H.
Defined.

Section MoreDraftAccess.
Variable type_attrs : string → attr_table.

Lemma picks_loop_prefix (items : list value) (i : nat) :
  (i ≤ 5)%nat →
  for_enumerate (show_pick type_attrs) i items =
  for_enumerate (show_pick type_attrs) i (take (6 - i) items).
Proof.
  revert i. induction items as [|x rest IH]; intros i Hi.
  { by rewrite take_nil. }
  replace (6 - i)%nat with (S (5 - i)) by lia. cbn [take for_enumerate].
  destruct (show_pick_cases type_attrs i x) as [H|[e H]]; rewrite H.
  - rewrite !bind_returns
      with (a := if (5 <=? Z.of_nat i)%Z then Break else Continue) by done.
    destruct (5 <=? Z.of_nat i)%Z eqn:E; [done|].
    apply Z.leb_gt in E. rewrite (IH (S i)) by lia.
    by replace (6 - S i)%nat with (5 - i)%nat by lia.
  - by rewrite !bind_raise.
Qed.

(** X3. The loop over [picks[:10]] is the loop over [picks[:6]]: the [break]
    at [i >= 5] comes before the seventh pick is read, so picks seven to
    ten are never looked at, whatever their getters would do. *)
Lemma picks_after_the_sixth_unread (l : list value) :
  for_enumerate (show_pick type_attrs) 0 (take 10 l) =
  for_enumerate (show_pick type_attrs) 0 (take 6 l).
Proof.
  rewrite (picks_loop_prefix (take 10 l) 0) by lia.
  by rewrite take_take.
Qed.


Lemma draft_access_try_count (league : value) :
  (count_lines is_pick_line (printed (draft_access_try type_attrs league))
   ≤ 6)%nat.
Proof.
  unfold draft_access_try.
  silent_step. destruct (result (hasattr _ _ _)) as [e|[]]; [count_nothing| |].
  2:{ cbn [printed print bind result fst snd app].
      rewrite !count_lines_cons, count_lines_nil. decide_lines. lia. }
  rewrite printed_bind_print, count_lines_cons. decide_lines.
  silent_step. destruct (result (attr _ _ _)) as [e|draft]; [count_nothing|].
  rewrite printed_bind_print, count_lines_cons. decide_lines.
  silent_step. destruct (result (hasattr _ _ _)) as [e|[]]; [count_nothing| |].
  2:{ cbn [printed print bind result fst snd app].
      rewrite !count_lines_cons, count_lines_nil. decide_lines. lia. }
  silent_step. destruct (result (attr _ _ _)) as [e|picks]; [count_nothing|].
  silent_step. destruct (result (len_or_0 _)) as [e|n]; [count_nothing|].
  rewrite printed_bind_print, count_lines_cons. decide_lines.
  destruct (truthy picks).
  2:{ cbn [printed print fst]. rewrite count_lines_cons, count_lines_nil.
      decide_lines. lia. }
  rewrite printed_bind_print, count_lines_cons. decide_lines.
  silent_step. destruct (result (slice_to _ _)) as [e|first10];
    [count_nothing|].
  silent_step. destruct (result (iter _)) as [e|items]; [count_nothing|].
  pose proof (picks_loop_count type_attrs items 0). lia.
Qed.

(** X5. Whatever the league handle is (any value, with any attributes, getters
    that raise included), the draft-access probe shows at most six picks. *)
Lemma draft_access_at_most_six (league : value) :
  (count_lines is_pick_line (printed (test_draft_access type_attrs league))
   ≤ 6)%nat.
Proof.
  destruct (truthy league) eqn:Ht.
  - rewrite draft_access_unfold by done. cbn [printed fst].
    rewrite !count_lines_cons, count_lines_app.
    rewrite count_lines_diagnostic; [|reflexivity|].
    + pose proof (draft_access_try_count league). decide_lines. lia.
    + intros [|[s| |] rest]; cbn; try done.
      intros ->%String.eqb_eq. reflexivity.
  - rewrite draft_access_no_league by done. cbn [printed fst].
    rewrite count_lines_cons, count_lines_nil. decide_lines. lia.
Qed.

End MoreDraftAccess.

Lemma for_each_app {A} (body : A → M unit) (a b : list A) :
  for_each body (a ++ b) = bind (for_each body a) (λ _, for_each body b).
Proof.
  induction a as [|x a IH]; cbn [app for_each].
  - by rewrite bind_ret_l.
  - rewrite IH. unfold bind.
    destruct (result (body x)) as [e|[]]; cbn [printed result fst snd]; [done|].
    destruct (result (for_each body a)) as [e|[]];
      cbn [printed result fst snd]; [done|].
    by rewrite app_assoc.
Qed.

(** A loop stops at the first item whose body raises: the items after it
    are not visited. *)
Lemma for_each_stops {A} (body : A → M unit) (a b : list A) (x : A) (e : exn) :
  result (for_each body a) = inr tt →
  result (body x) = inl e →
  for_each body (a ++ x :: b) =
    (printed (for_each body a) ++ printed (body x), inl e).
Proof.
  intros Ha Hx. rewrite for_each_app, (bind_returns _ _ _ Ha).
  cbn [for_each]. by rewrite (bind_raises _ _ _ Hx).
Qed.

Section MoreProbes.
Variable type_attrs : string → attr_table.

(** X6. When the inspection of one of the first three teams raises, the
    roster-access probe has shown the teams before it, prints what the
    failing team had printed so far and the line "Teams/roster access
    failed", and shows no later team. *)
Lemma roster_probe_stops_at_failing_team (league : value)
    (before after : list value) (team : value) (e : exn) :
  truthy league = true →
  attrs_of type_attrs league !! "teams"
    = Some (Holds (VList (before ++ team :: after))) →
  (length before < 3)%nat →
  result (for_each (show_team type_attrs) before) = inr tt →
  result (show_team type_attrs team) = inl e →
  test_teams_and_rosters type_attrs league =
    ([Lit (nl +:+ "👥 TESTING TEAMS AND ROSTERS")] :: [Lit (str_mul "=" 50)]
       :: [Lit "📊 Found ";
           Fmt (VInt (Z.of_nat (length (before ++ team :: after))));
           Lit " teams"]
       :: printed (for_each (show_team type_attrs) before)
       ++ printed (show_team type_attrs team)
       ++ [[Lit "❌ Teams/roster access failed: "; Lit (exc_msg e)]],
     inr tt).
Proof.
  intros Ht Hts Hlen Hb He.
  rewrite teams_and_rosters_unfold by done.
  rewrite (teams_and_rosters_try_list _ _ _ Hts).
  rewrite take_app_ge by lia.
  replace (3 - length before)%nat with (S (2 - length before)) by lia.
  cbn [take]. rewrite (for_each_stops _ _ _ _ _ Hb He).
  cbn [printed result fst snd diagnostic app]. by rewrite <- app_assoc.
Qed.

(** X7. A [draft] getter that raises: [AttributeError] makes [hasattr] answer
    [False], so the probe reports a league without draft; any other
    exception ends the probe with the line "Draft access failed". *)
Lemma draft_getter_raises (league : value) (e : exn) :
  truthy league = true →
  attrs_of type_attrs league !! "draft" = Some (Raises e) →
  test_draft_access type_attrs league =
    if is_AttributeError e then
      ([ [Lit (nl +:+ "🎯 TESTING DRAFT ACCESS")]; [Lit (str_mul "=" 50)];
         [Lit "❌ League has no 'draft' attribute"];
         [Lit "📋 Available league attributes: ";
          Fmt (str_list (filter (λ a, negb (startswith a "_"))
                           (dir type_attrs league)))] ],
       inr tt)
    else
      ([ [Lit (nl +:+ "🎯 TESTING DRAFT ACCESS")]; [Lit (str_mul "=" 50)];
         [Lit "❌ Draft access failed: "; Lit (exc_msg e)] ],
       inr tt).
Proof.
  intros Ht Hd. rewrite draft_access_unfold by done.
  unfold draft_access_try, hasattr, attr. rewrite Hd.
  unfold try_except. cbn [bind raise result printed fst snd app].
  destruct (is_AttributeError e); reflexivity.
Qed.

(** X8. Picks that are truthy but have no length (a number, an object): [len]
    raises before the total is printed, and the probe ends with the line
    "Draft access failed" after the line of the draft object. *)
Lemma draft_picks_unsized (league draft picks : value) (e : exn) :
  truthy league = true →
  attrs_of type_attrs league !! "draft" = Some (Holds draft) →
  attrs_of type_attrs draft !! "picks" = Some (Holds picks) →
  truthy picks = true →
  len picks = raise e →
  test_draft_access type_attrs league =
    ([ [Lit (nl +:+ "🎯 TESTING DRAFT ACCESS")]; [Lit (str_mul "=" 50)];
       [Lit "✅ League has draft attribute!"];
       [Lit "📋 Draft object: "; FmtType (type_name draft)];
       [Lit "❌ Draft access failed: "; Lit (exc_msg e)] ],
     inr tt).
Proof.
  intros Ht Hd Hp Htp He. rewrite draft_access_unfold by done.
  unfold draft_access_try.
  rewrite (hasattr_holds _ _ _ _ Hd), bind_ret_l, bind_print.
  rewrite (attr_holds _ _ _ _ Hd), bind_ret_l, bind_print.
  rewrite (hasattr_holds _ _ _ _ Hp), bind_ret_l.
  rewrite (attr_holds _ _ _ _ Hp), bind_ret_l.
  unfold len_or_0. rewrite Htp, He, bind_raise. reflexivity.
Qed.

(** X9. [main] never raises and runs the three probes in order, handing what
    the league-access probe returned to the two others and to the
    verdict. *)
Lemma main_runs_probes_in_order (League : League_class) :
  ∃ league,
    result (test_league_access type_attrs League) = inr league
    ∧ main type_attrs League =
        ([Lit "🏈 ESPN API LIBRARY TEST"]
           :: [Lit "Testing draft monitoring capabilities..."]
           :: printed (test_league_access type_attrs League)
           ++ printed (test_draft_access type_attrs league)
           ++ printed (test_teams_and_rosters type_attrs league)
           ++ [Lit (nl +:+ "🎯 SUMMARY:")] :: verdict league,
         inr tt).
Proof.
  destruct (league_access_returns type_attrs League) as (league & Hl & _).
  exists league. split; [done|]. by apply main_unfold.
Qed.

(** X10. The whole run when the library is importable but [League(...)] raises:
    eleven lines, the roster-access probe contributing none, and exit
    status 0. *)
Lemma script_when_league_access_fails (League : League_class) (e : exn) :
  League 449753582 2025 = inl e →
  script type_attrs (inr League) =
    ([ [Lit "✅ ESPN API library imported successfully!"];
       [Lit "🏈 ESPN API LIBRARY TEST"];
       [Lit "Testing draft monitoring capabilities..."];
       [Lit (nl +:+ "🔍 TESTING LEAGUE ACCESS")]; [Lit (str_mul "=" 50)];
       [Lit "📊 Connecting to League "; Fmt (VInt 449753582);
        Lit " (Year "; Fmt (VInt 2025); Lit ")..."];
       [Lit "❌ Public access failed: "; Lit (exc_msg e)];
       [Lit (nl +:+ "❌ No league to test draft access")];
       [Lit (nl +:+ "🎯 SUMMARY:")];
       [Lit "❌ ESPN API library couldn't connect to league"];
       [Lit "💡 May need authentication cookies for private leagues"] ],
     Exited 0).
Proof.
  intros HL. unfold script. rewrite bind_print.
  assert (Hl : test_league_access type_attrs League =
    ([ [Lit (nl +:+ "🔍 TESTING LEAGUE ACCESS")]; [Lit (str_mul "=" 50)];
       [Lit "📊 Connecting to League "; Fmt (VInt 449753582);
        Lit " (Year "; Fmt (VInt 2025); Lit ")..."];
       [Lit "❌ Public access failed: "; Lit (exc_msg e)] ],
     inr VNone)).
  { unfold test_league_access, league_access_try, construct.
    rewrite HL. reflexivity. }
  rewrite (main_unfold type_attrs League VNone) by (by rewrite Hl).
  rewrite Hl. reflexivity.
Qed.

End MoreProbes.

Lemma roster_probe_stops_at_failing_team_witness :
  let good := VObj "Team" (<["team_id" := Holds (VInt 1)]> ∅) in
  let bad := VObj "Team" (<["roster" := Holds (VInt 7)]> ∅) in
  let league :=
    VObj "League" (<["teams" := Holds (VList ([good] ++ bad :: [good]))]> ∅) in
  count_lines is_team_line
    (printed (test_teams_and_rosters bare_builtins league)) = 2%nat
  ∧ last (printed (test_teams_and_rosters bare_builtins league))
    = Some [Lit "❌ Teams/roster access failed: ";
            Lit "object of type 'int' has no len()"].
Proof.
  intros good bad league.
  rewrite (roster_probe_stops_at_failing_team bare_builtins league
             [good] [good] bad
             (Exn TypeError "object of type 'int' has no len()")
             eq_refl eq_refl);
    [split; reflexivity|cbn; lia|reflexivity|reflexivity].
Defined.

Lemma draft_getter_raises_witness :
  let boom := Exn (OtherError "ESPNAccessDenied") "private league" in
  let league := VObj "League" (<["draft" := Raises boom]> ∅) in
  test_draft_access bare_builtins league =
    ([ [Lit (nl +:+ "🎯 TESTING DRAFT ACCESS")]; [Lit (str_mul "=" 50)];
       [Lit "❌ Draft access failed: "; Lit "private league"] ],
     inr tt).
Proof.
  intros boom league.
  exact (draft_getter_raises bare_builtins league boom eq_refl eq_refl).
Defined.

Lemma draft_picks_unsized_witness :
  let draft := VObj "Draft" (<["picks" := Holds (VInt 12)]> ∅) in
  let league := VObj "League" (<["draft" := Holds draft]> ∅) in
  test_draft_access bare_builtins league =
    ([ [Lit (nl +:+ "🎯 TESTING DRAFT ACCESS")]; [Lit (str_mul "=" 50)];
       [Lit "✅ League has draft attribute!"];
       [Lit "📋 Draft object: "; FmtType "Draft"];
       [Lit "❌ Draft access failed: ";
        Lit "object of type 'int' has no len()"] ],
     inr tt).
Proof.
  intros draft league.
  exact (draft_picks_unsized bare_builtins league draft (VInt 12)
           (Exn TypeError "object of type 'int' has no len()")
           eq_refl eq_refl eq_refl eq_refl eq_refl).
Defined.

Lemma script_when_league_access_fails_witness :
  let League : League_class :=
    λ _ _, inl (Exn (OtherError "ESPNInvalidLeague") "League does not exist") in
  length (script bare_builtins (inr League)).1 = 11%nat
  ∧ (script bare_builtins (inr League)).2 = Exited 0.
Proof.
  intros League.
  rewrite (script_when_league_access_fails bare_builtins League
             (Exn (OtherError "ESPNInvalidLeague") "League does not exist")
             eq_refl).
  split; reflexivity.
Defined.
